(** * OTP sign-in flow: [src/app/[language]/sign-in/page-content.tsx]

    A shallow embedding of the [Form] component's state machine.  The React
    state cells ([isSubmitting], [isOtpSent], [countdown]) and the form values
    held by react-hook-form make up the state; the handlers are programs in a
    small state / exception / trace monad, written statement by statement as
    in the source.  Calls to collaborators (the two API services, the
    snackbar, [setError], [setTokensInfo], [setUser]) are recorded in order in
    a trace of events.  A handler is run to completion with the reply that the
    service call it awaits settles with; timer expiries and clicks that the
    event loop could serve while the call is pending are not interleaved
    (after an [await] the handlers only store constants). *)

From Stdlib Require Import ZArith List String Ascii Bool Arith Lia.
Import ListNotations.
Local Open Scope string_scope.
Local Open Scope list_scope.

(** ** Data model *)

(** [type SignInFormData]; an optional member is [None] when undefined. *)
Record SignInFormData : Type := mkForm {
  fullName : option string;
  phone : string;
  otp : option string
}.

(** The keys of [SignInFormData], as passed to [trigger], [setError]. *)
Inductive Field : Type := fullNameField | phoneField | otpField.

Definition field_value (f : Field) (v : SignInFormData) : option string :=
  match f with
  | fullNameField => fullName v
  | phoneField => Some (phone v)
  | otpField => otp v
  end.

(** [useForm]'s [defaultValues]. *)
Definition defaultValues : SignInFormData :=
  {| fullName := Some ""; phone := ""; otp := Some "" |}.

(** Modelled from the spec: [HTTP_CODES_ENUM] is imported from
    [@/services/api/types/http-codes], which is not part of the sources.  The
    specification names the values this component tells apart: [OK],
    [UNPROCESSABLE], and an open bucket of every other status. *)
Inductive TransportStatus : Type :=
| OK
| UNPROCESSABLE_ENTITY
| OtherStatus (code : Z).

Definition status_eqb (a b : TransportStatus) : bool :=
  match a, b with
  | OK, OK => true
  | UNPROCESSABLE_ENTITY, UNPROCESSABLE_ENTITY => true
  | OtherStatus x, OtherStatus y => Z.eqb x y
  | _, _ => false
  end.

(** [AuthPhoneRequestOtpRequest]: [payload_fullName = None] is a payload
    object without a [fullName] key. *)
Record AuthPhoneRequestOtpRequest : Type := mkRequest {
  payload_phone : string;
  payload_fullName : option string
}.

(** The argument of [verifyOtp]; [formData.otp as string] is a cast only, so
    an undefined [otp] is passed on as it is. *)
Record AuthPhoneVerifyOtpRequest : Type := mkVerify {
  verify_phone : string;
  verify_otp : option string
}.

(** What an awaited service call settles with. *)
Inductive Outcome (R : Type) : Type :=
| Resolves (r : R)
| Rejects.
Arguments Resolves {R} r.
Arguments Rejects {R}.

(** Snackbar [variant]. *)
Inductive Variant : Type := variant_success | variant_error.

(** The React state of [Form] together with the form values. *)
Record State : Type := mkState {
  isSubmitting : bool;
  isOtpSent : bool;
  countdown : Z;
  values : SignInFormData
}.

Definition initialState : State :=
  {| isSubmitting := false; isOtpSent := false; countdown := 0%Z;
     values := defaultValues |}.

(** The specification's [Phase], read off [isOtpSent]. *)
Inductive Phase : Type := RequestingOtp | VerifyingOtp.

Definition phase (s : State) : Phase :=
  if isOtpSent s then VerifyingOtp else RequestingOtp.

(** JavaScript exceptions that can surface in the handlers. *)
Inductive Exn : Type :=
| Rejection   (* the awaited promise was rejected *)
| TypeError.  (* property read on [undefined] *)

(** How a block of statements completes: normally, by [return;], or by a
    thrown exception. *)
Inductive Completion (A : Type) : Type :=
| Normal (a : A)
| Returned
| Thrown (e : Exn).
Arguments Normal {A} a.
Arguments Returned {A}.
Arguments Thrown {A} e.

(** ** Strings, truthiness and the phone pattern

    A form string is a [string] whose characters stand for the code units of
    the JavaScript string; the code tells apart only the digits [0] to [9]
    and counts code units. *)

(** [\d] *)
Definition is_digit (c : ascii) : bool :=
  (48 <=? nat_of_ascii c)%nat && (nat_of_ascii c <=? 57)%nat.

Fixpoint all_digits (s : string) : bool :=
  match s with
  | EmptyString => true
  | String c r => is_digit c && all_digits r
  end.

(** The regular expression [/^\d+$/] (no flags: [$] is the end of input). *)
Definition re_digits (s : string) : bool :=
  match s with
  | EmptyString => false
  | String _ _ => all_digits s
  end.

(** [if (fullName)]: [undefined] and the empty string are falsy. *)
Definition truthy (v : option string) : bool :=
  match v with
  | None => false
  | Some EmptyString => false
  | Some (String _ _) => true
  end.

(** The pattern [^\d{10,}$] as the specification words it, read left to
    right: [n] digits are still owed, then any number of further digits. *)
Fixpoint spec_digits_at_least (n : nat) (s : string) : bool :=
  match s with
  | EmptyString => match n with O => true | S _ => false end
  | String c r => is_digit c && spec_digits_at_least (Nat.pred n) r
  end.

Definition spec_phone_pattern (p : string) : bool := spec_digits_at_least 10 p.

Section Flow.

(** [data.user] is opaque to this component. *)
Context {User : Type}.

(** [useTranslation("sign-in")]'s [t], a collaborator. *)
Variable t : string -> string.

(** Modelled from the spec: the [data] of a successful [verifyOtp] response,
    [{token, refreshToken, tokenExpires, user}]; its type lives in
    [@/services/api/services/auth], outside the sources. *)
Record LoginData : Type := mkLoginData {
  token : string;
  refreshToken : string;
  tokenExpires : Z;
  user : User
}.

(** [{ data, status }] as returned by [verifyOtp]. *)
Record VerifyResponse : Type := mkVerifyResponse {
  status : TransportStatus;
  data : option LoginData
}.

(** Calls made to collaborators, in program order. *)
Inductive Event : Type :=
| RequestOtpCall (payload : AuthPhoneRequestOtpRequest)
| VerifyOtpCall (payload : AuthPhoneVerifyOtpRequest)
| EnqueueSnackbar (message : string) (variant : Variant)
| SetError (name : Field) (message : string)
| SetTokensInfo (tok refresh : string) (expires : Z)
| SetUser (u : User).

(** ** Validation schemas ([useValidationSchema]) *)

Inductive Test : Type :=
| Required (message : string)
| Min (limit : nat) (message : string)
| Matches (regex : string -> bool) (message : string).

Definition test_message (x : Test) : string :=
  match x with
  | Required m => m
  | Min _ m => m
  | Matches _ m => m
  end.

(** yup's string tests: [required] rejects [undefined] and [""]; [min] and
    [matches] skip an absent value. *)
Definition test_holds (x : Test) (v : option string) : bool :=
  match x, v with
  | Required _, None => false
  | Required _, Some w => negb (String.length w =? 0)%nat
  | Min n _, Some w => (n <=? String.length w)%nat
  | Matches re _, Some w => re w
  | Min _ _, None => true
  | Matches _ _, None => true
  end.

Definition Schema : Type := Field -> list Test.

Definition requestOtpSchema : Schema := fun f =>
  match f with
  | fullNameField => []
  | phoneField =>
      [ Required (t "sign-in:inputs.phone.validation.required");
        Min 10 (t "sign-in:inputs.phone.validation.length");
        Matches re_digits (t "sign-in:inputs.phone.validation.numeric") ]
  | otpField => []
  end.

Definition verifyOtpSchema : Schema := fun f =>
  match f with
  | fullNameField => []
  | phoneField =>
      [ Required (t "sign-in:inputs.phone.validation.required");
        Min 10 (t "sign-in:inputs.phone.validation.length");
        Matches re_digits (t "sign-in:inputs.phone.validation.numeric") ]
  | otpField => [ Required (t "sign-in:inputs.otp.validation.required") ]
  end.

Definition useValidationSchema (isOtpSent : bool) : Schema :=
  if isOtpSent then verifyOtpSchema else requestOtpSchema.

(** The messages of the tests of [f] that the form values fail. *)
Definition field_errors (sch : Schema) (f : Field) (v : SignInFormData)
  : list string :=
  map test_message
      (filter (fun x => negb (test_holds x (field_value f v))) (sch f)).

Definition field_ok (sch : Schema) (v : SignInFormData) (f : Field) : bool :=
  match field_errors sch f v with
  | [] => true
  | _ :: _ => false
  end.

(** ** The handler monad *)

Definition Flow (A : Type) : Type :=
  State -> Completion A * State * list Event.

Definition ret {A : Type} (a : A) : Flow A := fun s => (Normal a, s, []).

Definition bind {A B : Type} (m : Flow A) (k : A -> Flow B) : Flow B :=
  fun s =>
    match m s with
    | (Normal a, s1, ev1) =>
        match k a s1 with
        | (c, s2, ev2) => (c, s2, ev1 ++ ev2)
        end
    | (Returned, s1, ev1) => (Returned, s1, ev1)
    | (Thrown e, s1, ev1) => (Thrown e, s1, ev1)
    end.

(** [return;] *)
Definition return_ {A : Type} : Flow A := fun s => (Returned, s, []).

(** [try { body } finally { fin }]: [fin] runs however [body] completes, and
    the completion of [body] stands unless [fin] itself is abrupt. *)
Definition try_finally {A : Type} (body : Flow A) (fin : Flow unit) : Flow A :=
  fun s =>
    match body s with
    | (c, s1, ev1) =>
        match fin s1 with
        | (Normal _, s2, ev2) => (c, s2, ev1 ++ ev2)
        | (Returned, s2, ev2) => (Returned, s2, ev1 ++ ev2)
        | (Thrown e, s2, ev2) => (Thrown e, s2, ev1 ++ ev2)
        end
    end.

(** The body of an [async] function: [return;] ends the call normally, an
    exception rejects the returned promise. *)
Definition async (body : Flow unit) : Flow unit :=
  fun s =>
    match body s with
    | (Returned, s1, ev1) => (Normal tt, s1, ev1)
    | r => r
    end.

Definition emit (e : Event) : Flow unit := fun s => (Normal tt, s, [e]).

Notation "x <- m ;; k" := (bind m (fun x => k))
  (at level 61, m at next level, right associativity).
Notation "m ;;; k" := (bind m (fun _ => k))
  (at level 61, right associativity).

(** *** State setters and form methods *)

Definition setIsSubmiting (b : bool) : Flow unit := fun s =>
  (Normal tt,
   {| isSubmitting := b; isOtpSent := isOtpSent s;
      countdown := countdown s; values := values s |}, []).

Definition setIsOtpSent (b : bool) : Flow unit := fun s =>
  (Normal tt,
   {| isSubmitting := isSubmitting s; isOtpSent := b;
      countdown := countdown s; values := values s |}, []).

Definition setCountdown (n : Z) : Flow unit := fun s =>
  (Normal tt,
   {| isSubmitting := isSubmitting s; isOtpSent := isOtpSent s;
      countdown := n; values := values s |}, []).

Definition getValues : Flow SignInFormData := fun s =>
  (Normal (values s), s, []).

Definition getValue (f : Field) : Flow (option string) := fun s =>
  (Normal (field_value f (values s)), s, []).

(** [getValues("phone")]; [phone] is not optional. *)
Definition getPhone : Flow string := fun s =>
  (Normal (phone (values s)), s, []).

(** [reset(v)] replaces the form values. *)
Definition reset (v : SignInFormData) : Flow unit := fun s =>
  (Normal tt,
   {| isSubmitting := isSubmitting s; isOtpSent := isOtpSent s;
      countdown := countdown s; values := v |}, []).

(** [trigger(names)]: the resolver of the schema of the current phase is
    run, and the result is whether none of the named fields has an error. *)
Definition trigger (names : list Field) : Flow bool := fun s =>
  (Normal (forallb (field_ok (useValidationSchema (isOtpSent s)) (values s))
                   names), s, []).

(** [handleSubmit(onValid)]: the whole form is validated against the schema
    of the current phase, and [onValid] is called with the values only when
    there is no error. *)
Definition handleSubmit (onValid : SignInFormData -> Flow unit) : Flow unit :=
  fun s =>
    if forallb (field_ok (useValidationSchema (isOtpSent s)) (values s))
               [fullNameField; phoneField; otpField]
    then onValid (values s) s
    else (Normal tt, s, []).

(** *** Collaborators *)

Definition enqueueSnackbar (message : string) (v : Variant) : Flow unit :=
  emit (EnqueueSnackbar message v).

Definition setError (name : Field) (message : string) : Flow unit :=
  emit (SetError name message).

Definition setTokensInfo (tok refresh : string) (expires : Z) : Flow unit :=
  emit (SetTokensInfo tok refresh expires).

Definition setUser (u : User) : Flow unit := emit (SetUser u).

(** [await requestOtp(payload)], settling with [reply]. *)
Definition requestOtp (reply : Outcome TransportStatus)
    (payload : AuthPhoneRequestOtpRequest) : Flow TransportStatus :=
  fun s =>
    (match reply with
     | Resolves st => Normal st
     | Rejects => Thrown Rejection
     end, s, [RequestOtpCall payload]).

(** [await verifyOtp(payload)], settling with [reply]. *)
Definition verifyOtp (reply : Outcome VerifyResponse)
    (payload : AuthPhoneVerifyOtpRequest) : Flow VerifyResponse :=
  fun s =>
    (match reply with
     | Resolves r => Normal r
     | Rejects => Thrown Rejection
     end, s, [VerifyOtpCall payload]).

(** Reading a property of [data]: a [TypeError] when [data] is undefined. *)
Definition member {A : Type} (d : option LoginData) (get : LoginData -> A)
  : Flow A :=
  fun s =>
    match d with
    | Some x => (Normal (get x), s, [])
    | None => (Thrown TypeError, s, [])
    end.

(** ** The handlers of [Form] *)

(** The [useEffect] on [countdown]: one timer per positive value, whose
    expiry stores [countdown - 1]. *)
Definition tick (s : State) : State :=
  if (countdown s <=? 0)%Z then s
  else {| isSubmitting := isSubmitting s; isOtpSent := isOtpSent s;
          countdown := (countdown s - 1)%Z; values := values s |}.

Definition onSubmit (reply : Outcome VerifyResponse) : Flow unit :=
  handleSubmit (fun formData => async (
    setIsSubmiting true ;;;
    r <- verifyOtp reply {| verify_phone := phone formData;
                            verify_otp := otp formData |} ;;
    (if status_eqb (status r) UNPROCESSABLE_ENTITY then
       setIsSubmiting false ;;;
       setError otpField (t "sign-in:alerts.wrongOTP") ;;;
       return_
     else ret tt) ;;;
    (if status_eqb (status r) OK then
       setIsSubmiting false ;;;
       enqueueSnackbar (t "sign-in:alerts.success") variant_success ;;;
       tok <- member (data r) token ;;
       refresh <- member (data r) refreshToken ;;
       expires <- member (data r) tokenExpires ;;
       setTokensInfo tok refresh expires ;;;
       u <- member (data r) user ;;
       setUser u
     else ret tt))).

Definition handleRequestOtp (reply : Outcome TransportStatus) : Flow unit :=
  async (
    isValid <- trigger [phoneField; fullNameField] ;;
    (if negb isValid then return_ else ret tt) ;;;
    setIsSubmiting true ;;;
    try_finally (
      v <- getValues ;;
      let payload := {| payload_phone := phone v; payload_fullName := None |} in
      let payload :=
        if truthy (fullName v)
        then {| payload_phone := payload_phone payload;
                payload_fullName := fullName v |}
        else payload in
      st <- requestOtp reply payload ;;
      (if status_eqb st OK then
         setIsOtpSent true ;;;
         setCountdown 30 ;;;
         enqueueSnackbar (t "sign-in:alert.otpSent") variant_success ;;;
         return_
       else ret tt) ;;;
      setError phoneField (t "sign-in:alerts.otpResentFailed"))
    (setIsSubmiting false)).

Definition handleResendOtp (reply : Outcome TransportStatus) : Flow unit :=
  async (
    v <- getValues ;;
    let payload := {| payload_phone := phone v; payload_fullName := None |} in
    let payload :=
      if truthy (fullName v)
      then {| payload_phone := payload_phone payload;
              payload_fullName := fullName v |}
      else payload in
    st <- requestOtp reply payload ;;
    setCountdown 30 ;;;
    (if status_eqb st OK then
       enqueueSnackbar (t "sign-in:messages.otpResent") variant_success
     else
       enqueueSnackbar (t "sign-in:inputs.phone.validation.server.error")
                       variant_error)).

Definition handleBack : Flow unit :=
  setIsOtpSent false ;;;
  setCountdown 0 ;;;
  fn <- getValue fullNameField ;;
  ph <- getPhone ;;
  reset {| fullName := fn; phone := ph; otp := Some "" |}.

(** ** The resend button

    It is part of the branch rendered when [isOtpSent] holds, and carries
    [disabled={countdown > 0 || isSubmitting}]; a click reaches
    [handleResendOtp] only on a rendered, enabled button. *)
Definition resend_rendered (s : State) : bool := isOtpSent s.

Definition resend_disabled (s : State) : bool :=
  (0 <? countdown s)%Z || isSubmitting s.

Definition click_resend (reply : Outcome TransportStatus) : Flow unit :=
  fun s =>
    if resend_rendered s && negb (resend_disabled s)
    then handleResendOtp reply s
    else (Normal tt, s, []).

(** Projections of a finished run. *)
Definition completion {A : Type} (r : Completion A * State * list Event)
  : Completion A := fst (fst r).
Definition final {A : Type} (r : Completion A * State * list Event)
  : State := snd (fst r).
Definition trace {A : Type} (r : Completion A * State * list Event)
  : list Event := snd r.

(** Whether an event is a call to one of the two API services. *)
Definition is_network_call (e : Event) : bool :=
  match e with
  | RequestOtpCall _ => true
  | VerifyOtpCall _ => true
  | _ => false
  end.

(** The value of [payload] at the [requestOtp] call of [handleRequestOtp] and
    of [handleResendOtp], used to state their traces. *)
Definition request_payload (v : SignInFormData) : AuthPhoneRequestOtpRequest :=
  {| payload_phone := phone v;
     payload_fullName := if truthy (fullName v) then fullName v else None |}.

(** A state in the verifying phase with a well-formed phone and a code typed
    in, while the countdown is running. *)
Definition verifying_state : State :=
  {| isSubmitting := false; isOtpSent := true; countdown := 30;
     values := {| fullName := Some "Jane Doe"; phone := "5551234567";
                  otp := Some "123456" |} |}.

(** The first scenario of the specification: the form as filled in before
    the code is requested. *)
Definition requesting_state : State :=
  {| isSubmitting := false; isOtpSent := false; countdown := 0;
     values := {| fullName := Some "Jane Doe"; phone := "5551234567";
                  otp := Some "" |} |}.

(** The same form with a phone of five digits and no name. *)
Definition short_phone_state : State :=
  {| isSubmitting := false; isOtpSent := false; countdown := 0;
     values := {| fullName := Some ""; phone := "55512";
                  otp := Some "" |} |}.

(** Five seconds of the countdown are left. *)
Definition cooling_state : State :=
  {| isSubmitting := false; isOtpSent := true; countdown := 5;
     values := values verifying_state |}.

(** The countdown has run out. *)
Definition cooled_state : State :=
  {| isSubmitting := false; isOtpSent := true; countdown := 0;
     values := values verifying_state |}.

(** ** The rendered controls

    The inputs and buttons of the JSX that [Form] returns, with the
    [disabled] and [loading] props they are given ([None]: the prop is not
    passed). *)
Inductive Control : Type :=
| PhoneInput
| OtpInput
| FullNameInput
| SendOtpButton
| BackButton
| VerifyButton
| ResendOtpButton.

(** [data-testid] / [testId]. *)
Definition testId (c : Control) : string :=
  match c with
  | PhoneInput => "phone"
  | OtpInput => "otp"
  | FullNameInput => "fullName"
  | SendOtpButton => "send-otp-submit"
  | BackButton => "back-button"
  | VerifyButton => "sign-in-submit"
  | ResendOtpButton => "resend-otp"
  end.

Record Element : Type := mkElement {
  control : Control;
  disabled : option bool;
  loading : option bool
}.

Definition render (s : State) : list Element :=
  [ {| control := PhoneInput;
       disabled := Some (isOtpSent s || isSubmitting s);
       loading := None |} ]
  ++ (if isOtpSent s then
        [ {| control := OtpInput;
             disabled := Some (isSubmitting s);
             loading := None |} ]
      else
        [ {| control := FullNameInput;
             disabled := Some (isOtpSent s || isSubmitting s);
             loading := None |} ])
  ++ (if negb (isOtpSent s) then
        [ {| control := SendOtpButton;
             disabled := Some (isSubmitting s);
             loading := Some (isSubmitting s) |} ]
      else
        [ {| control := BackButton;
             disabled := None;
             loading := Some (isSubmitting s) |};
          {| control := VerifyButton;
             disabled := Some (isSubmitting s);
             loading := Some (isSubmitting s) |};
          {| control := ResendOtpButton;
             disabled := Some ((0 <? countdown s)%Z || isSubmitting s);
             loading := Some (isSubmitting s) |} ]).

Definition control_eqb (a b : Control) : bool :=
  match a, b with
  | PhoneInput, PhoneInput => true
  | OtpInput, OtpInput => true
  | FullNameInput, FullNameInput => true
  | SendOtpButton, SendOtpButton => true
  | BackButton, BackButton => true
  | VerifyButton, VerifyButton => true
  | ResendOtpButton, ResendOtpButton => true
  | _, _ => false
  end.

(** A control takes input when it is rendered and is not given
    [disabled={true}].  (What [loading] does to a button is the component
    library's business; the Back button, which has no [disabled] prop, counts
    as operable whenever it is rendered.) *)
Definition operable (c : Control) (s : State) : bool :=
  existsb (fun e => control_eqb (control e) c
                    && match disabled e with
                       | Some true => false
                       | _ => true
                       end)
          (render s).

(** The input that [FormTextInput name=...] renders for a field. *)
Definition input_of (f : Field) : Control :=
  match f with
  | fullNameField => FullNameInput
  | phoneField => PhoneInput
  | otpField => OtpInput
  end.

(** ** User actions

    What can happen to the mounted form: the countdown timer expires, the
    user types into an input, or uses one of the buttons.  A service reply is
    part of the action that awaits it. *)
Inductive Action : Type :=
| Tick
| Edit (f : Field) (text : string)
| ClickSend (reply : Outcome TransportStatus)
| ClickVerify (reply : Outcome VerifyResponse)
| ClickBack
| ClickResend (reply : Outcome TransportStatus).

(** Typing [text] into the input registered under [f]. *)
Definition setValue (f : Field) (text : string) : Flow unit := fun s =>
  (Normal tt,
   {| isSubmitting := isSubmitting s; isOtpSent := isOtpSent s;
      countdown := countdown s;
      values :=
        match f with
        | fullNameField =>
            {| fullName := Some text; phone := phone (values s);
               otp := otp (values s) |}
        | phoneField =>
            {| fullName := fullName (values s); phone := text;
               otp := otp (values s) |}
        | otpField =>
            {| fullName := fullName (values s); phone := phone (values s);
               otp := Some text |}
        end |}, []).

(** One action: the handler bound to the control runs when the control is
    operable; otherwise nothing happens.  [VerifyButton] has [type="submit"]
    in the form whose [onSubmit] is [onSubmit]. *)
Definition perform (a : Action) : Flow unit := fun s =>
  match a with
  | Tick => (Normal tt, tick s, [])
  | Edit f text =>
      if operable (input_of f) s then setValue f text s else (Normal tt, s, [])
  | ClickSend reply =>
      if operable SendOtpButton s then handleRequestOtp reply s
      else (Normal tt, s, [])
  | ClickVerify reply =>
      if operable VerifyButton s then onSubmit reply s else (Normal tt, s, [])
  | ClickBack =>
      if operable BackButton s then handleBack s else (Normal tt, s, [])
  | ClickResend reply => click_resend reply s
  end.

(** A session: the actions one after the other.  An exception that leaves a
    handler is an unhandled rejection; the form stays mounted with the state
    the handler left. *)
Fixpoint run (acts : list Action) (s : State) : State * list Event :=
  match acts with
  | [] => (s, [])
  | a :: rest =>
      match perform a s with
      | (_, s1, ev1) =>
          match run rest s1 with
          | (s2, ev2) => (s2, ev1 ++ ev2)
          end
      end
  end.

(** What holds of the services' arguments in every session: the phone of a
    request matches the pattern; so does the phone of a verification, whose
    code is a non-empty string. *)
Definition validated_call (e : Event) : bool :=
  match e with
  | RequestOtpCall p => spec_phone_pattern (payload_phone p)
  | VerifyOtpCall p => spec_phone_pattern (verify_phone p)
                       && truthy (verify_otp p)
  | _ => true
  end.

(** Whether an event hands the session to the auth collaborators. *)
Definition is_session_write (e : Event) : bool :=
  match e with
  | SetTokensInfo _ _ _ => true
  | SetUser _ => true
  | _ => false
  end.

(** What every session keeps: the countdown stays within its thirty
    seconds, the verifying phase is only entered, and stays, with a phone of
    the pattern, and the optional form members are never undefined. *)
Definition session_invariant (s : State) : Prop :=
  (0 <= countdown s <= 30)%Z
  /\ (isOtpSent s = true -> spec_phone_pattern (phone (values s)) = true)
  /\ fullName (values s) <> None
  /\ otp (values s) <> None.

(** ** Validation lemmas *)

Lemma spec_digits_at_least_length (s : string) :
  forall n, spec_digits_at_least n s
            = (n <=? String.length s)%nat && all_digits s.
Proof.
  induction s as [|c r IH]; intros n.
  - destruct n; reflexivity.
  - cbn [spec_digits_at_least all_digits String.length].
    rewrite IH. destruct n as [|n]; cbn [Nat.pred Nat.leb].
    + reflexivity.
    + destruct (is_digit c), (n <=? String.length r)%nat; reflexivity.
Qed.

Lemma spec_phone_pattern_false_iff (p : string) :
  spec_phone_pattern p = false
  <-> (String.length p < 10)%nat \/ all_digits p = false.
Proof.
  unfold spec_phone_pattern. rewrite spec_digits_at_least_length.
  rewrite andb_false_iff, Nat.leb_gt. tauto.
Qed.

(** Both schemas put the same three tests on [phone], and together they
    accept exactly the strings of the pattern. *)
Lemma phone_ok_pattern (b : bool) (v : SignInFormData) :
  field_ok (useValidationSchema b) v phoneField = spec_phone_pattern (phone v).
Proof.
  unfold spec_phone_pattern. rewrite spec_digits_at_least_length.
  assert (E : field_ok (useValidationSchema b) v phoneField
              = negb (String.length (phone v) =? 0)%nat
                && ((10 <=? String.length (phone v))%nat
                    && re_digits (phone v))).
  { unfold field_ok, field_errors, useValidationSchema.
    destruct b; unfold verifyOtpSchema, requestOtpSchema, field_value;
      cbn [filter test_holds];
      generalize (String.length (phone v) =? 0)%nat as e,
                 (10 <=? String.length (phone v))%nat as l,
                 (re_digits (phone v)) as d;
      intros [|] [|] [|]; reflexivity. }
  rewrite E. destruct (phone v) as [|c r]; [reflexivity|].
  cbn [String.length Nat.eqb negb andb re_digits]. reflexivity.
Qed.

Lemma fullName_ok (b : bool) (v : SignInFormData) :
  field_ok (useValidationSchema b) v fullNameField = true.
Proof. destruct b; reflexivity. Qed.

Lemma otp_ok_verify (v : SignInFormData) :
  field_ok verifyOtpSchema v otpField = truthy (otp v).
Proof.
  unfold field_ok, field_errors. cbn.
  destruct (otp v) as [[|c r]|]; reflexivity.
Qed.

Lemma trigger_request (s : State) :
  trigger [phoneField; fullNameField] s
  = (Normal (spec_phone_pattern (phone (values s))), s, []).
Proof.
  unfold trigger. cbn [forallb].
  rewrite phone_ok_pattern, fullName_ok.
  now rewrite !andb_true_r.
Qed.

(** ** The handlers, case by case *)

Lemma handleRequestOtp_cases (reply : Outcome TransportStatus) (s : State) :
  handleRequestOtp reply s
  = if spec_phone_pattern (phone (values s)) then
      match reply with
      | Resolves OK =>
          (Normal tt,
           {| isSubmitting := false; isOtpSent := true; countdown := 30;
              values := values s |},
           [RequestOtpCall (request_payload (values s));
            EnqueueSnackbar (t "sign-in:alert.otpSent") variant_success])
      | Resolves _ =>
          (Normal tt,
           {| isSubmitting := false; isOtpSent := isOtpSent s;
              countdown := countdown s; values := values s |},
           [RequestOtpCall (request_payload (values s));
            SetError phoneField (t "sign-in:alerts.otpResentFailed")])
      | Rejects =>
          (Thrown Rejection,
           {| isSubmitting := false; isOtpSent := isOtpSent s;
              countdown := countdown s; values := values s |},
           [RequestOtpCall (request_payload (values s))])
      end
    else (Normal tt, s, []).
Proof.
  unfold handleRequestOtp, async, bind at 1. rewrite trigger_request.
  unfold request_payload.
  destruct (spec_phone_pattern (phone (values s))); [|reflexivity].
  destruct reply as [[| |code]|]; cbn;
    destruct (truthy (fullName (values s))); reflexivity.
Qed.

Lemma handleResendOtp_cases (reply : Outcome TransportStatus) (s : State) :
  handleResendOtp reply s
  = match reply with
    | Resolves st =>
        (Normal tt,
         {| isSubmitting := isSubmitting s; isOtpSent := isOtpSent s;
            countdown := 30; values := values s |},
         [RequestOtpCall (request_payload (values s));
          if status_eqb st OK
          then EnqueueSnackbar (t "sign-in:messages.otpResent") variant_success
          else EnqueueSnackbar
                 (t "sign-in:inputs.phone.validation.server.error")
                 variant_error])
    | Rejects =>
        (Thrown Rejection, s, [RequestOtpCall (request_payload (values s))])
    end.
Proof.
  unfold request_payload.
  destruct reply as [[| |code]|]; cbn;
    destruct (truthy (fullName (values s))); reflexivity.
Qed.

Lemma handleSubmit_valid (s : State) :
  forallb (field_ok (useValidationSchema (isOtpSent s)) (values s))
          [fullNameField; phoneField; otpField]
  = spec_phone_pattern (phone (values s))
    && (if isOtpSent s then truthy (otp (values s)) else true).
Proof.
  cbn [forallb]. rewrite phone_ok_pattern, fullName_ok, andb_true_r.
  cbn [andb]. f_equal.
  destruct (isOtpSent s); cbn [useValidationSchema].
  - apply otp_ok_verify.
  - reflexivity.
Qed.

Lemma onSubmit_cases (reply : Outcome VerifyResponse) (s : State) :
  onSubmit reply s
  = if spec_phone_pattern (phone (values s))
       && (if isOtpSent s then truthy (otp (values s)) else true)
    then
      let call := VerifyOtpCall {| verify_phone := phone (values s);
                                   verify_otp := otp (values s) |} in
      let settled (b : bool) :=
        {| isSubmitting := b; isOtpSent := isOtpSent s;
           countdown := countdown s; values := values s |} in
      match reply with
      | Resolves r =>
          match status r with
          | UNPROCESSABLE_ENTITY =>
              (Normal tt, settled false,
               [call; SetError otpField (t "sign-in:alerts.wrongOTP")])
          | OK =>
              match data r with
              | Some d =>
                  (Normal tt, settled false,
                   [call;
                    EnqueueSnackbar (t "sign-in:alerts.success") variant_success;
                    SetTokensInfo (token d) (refreshToken d) (tokenExpires d);
                    SetUser (user d)])
              | None =>
                  (Thrown TypeError, settled false,
                   [call;
                    EnqueueSnackbar (t "sign-in:alerts.success") variant_success])
              end
          | OtherStatus _ => (Normal tt, settled true, [call])
          end
      | Rejects => (Thrown Rejection, settled true, [call])
      end
    else (Normal tt, s, []).
Proof.
  unfold onSubmit, handleSubmit. rewrite handleSubmit_valid.
  destruct (spec_phone_pattern (phone (values s))
            && (if isOtpSent s then truthy (otp (values s)) else true));
    [|reflexivity].
  destruct reply as [[st d]|]; [|reflexivity].
  destruct st as [| |code]; [destruct d as [d|]| |]; reflexivity.
Qed.

Lemma handleBack_cases (s : State) :
  handleBack s
  = (Normal tt,
     {| isSubmitting := isSubmitting s; isOtpSent := false; countdown := 0;
        values := {| fullName := fullName (values s);
                     phone := phone (values s); otp := Some "" |} |},
     []).
Proof. reflexivity. Qed.

(** The request site releases the pending flag however the call settles:
    the [finally] block of [handleRequestOtp]. *)
Lemma handleRequestOtp_releases (reply : Outcome TransportStatus) (s : State) :
  spec_phone_pattern (phone (values s)) = true ->
  isSubmitting (final (handleRequestOtp reply s)) = false.
Proof.
  intros H. rewrite handleRequestOtp_cases, H.
  destruct reply as [[| |code]|]; reflexivity.
Qed.

(** A rejected [verifyOtp] call leaves the pending flag raised as well. *)
Lemma onSubmit_rejected_keeps_flag (s : State) :
  spec_phone_pattern (phone (values s)) = true ->
  isOtpSent s = true ->
  truthy (otp (values s)) = true ->
  isSubmitting (final (onSubmit Rejects s)) = true.
Proof.
  intros Hp Hs Ho. rewrite onSubmit_cases, Hp, Hs, Ho. reflexivity.
Qed.

(** A rejected [requestOtp] call leaves [handleResendOtp] before
    [setCountdown(30)]: the state is as it was. *)
Lemma handleResendOtp_rejected (s : State) :
  handleResendOtp Rejects s
  = (Thrown Rejection, s, [RequestOtpCall (request_payload (values s))]).
Proof. now rewrite handleResendOtp_cases. Qed.

(** The timer takes one second off a positive countdown and is idle at
    zero. *)
Lemma tick_countdown (s : State) :
  ((0 < countdown s)%Z -> countdown (tick s) = (countdown s - 1)%Z)
  /\ ((countdown s <= 0)%Z -> tick s = s).
Proof.
  unfold tick. destruct (Z.leb_spec (countdown s) 0); split; cbn; intros;
    try reflexivity; lia.
Qed.

(** The timer brings the countdown of thirty seconds, as set by a successful
    request, to zero, where the resend button is enabled again. *)
Lemma countdown_runs_out :
  let sent := final (handleRequestOtp (Resolves OK) requesting_state) in
  countdown sent = 30%Z
  /\ resend_disabled sent = true
  /\ countdown (Nat.iter 30 tick sent) = 0%Z
  /\ resend_disabled (Nat.iter 30 tick sent) = false
  /\ tick (Nat.iter 30 tick sent) = Nat.iter 30 tick sent.
Proof.
  vm_compute. repeat split; reflexivity.
Qed.

(** ** The claims *)

(** C1 (at the failing input).  A verify call answered with a status that is
    neither [OK] nor [UNPROCESSABLE_ENTITY] runs neither branch of [onSubmit]:
    from [verifying_state] the call is made, nothing else happens, and
    [isSubmitting] is still [true] when the handler has completed. *)
Theorem onSubmit_other_status_keeps_flag (code : Z) (d : option LoginData) :
  onSubmit (Resolves {| status := OtherStatus code; data := d |})
           verifying_state
  = (Normal tt,
     {| isSubmitting := true; isOtpSent := true; countdown := 30;
        values := values verifying_state |},
     [VerifyOtpCall {| verify_phone := "5551234567";
                       verify_otp := Some "123456" |}]).
Proof. rewrite onSubmit_cases. reflexivity. Qed.

(** What [handleRequestOtp] does on a status other than [OK]: it completes
    with [isSubmitting = false] and the phase as it was, and its only
    collaborator call after the request is one [setError] on [phone]. *)
Lemma handleRequestOtp_failure_status (st : TransportStatus) (s : State) :
  spec_phone_pattern (phone (values s)) = true ->
  st <> OK ->
  let r := handleRequestOtp (Resolves st) s in
  completion r = Normal tt
  /\ isSubmitting (final r) = false
  /\ phase (final r) = phase s
  /\ trace r = [RequestOtpCall (request_payload (values s));
                SetError phoneField (t "sign-in:alerts.otpResentFailed")].
Proof.
  intros Hp Hst r. subst r.
  rewrite handleRequestOtp_cases, Hp.
  destruct st as [| |code]; [contradiction| |]; repeat split; reflexivity.
Qed.


(** C3.  A click on the resend button while [countdown > 0] does nothing: the
    state, and with it the countdown, is as before and no collaborator is
    called.  With [countdown = 0] in the verifying phase and nothing pending
    the click runs [handleResendOtp], which calls [requestOtp]. *)
Theorem click_resend_countdown_gate
    (reply : Outcome TransportStatus) (s : State) :
  ((0 < countdown s)%Z -> click_resend reply s = (Normal tt, s, []))
  /\ (countdown s = 0%Z -> phase s = VerifyingOtp -> isSubmitting s = false ->
      click_resend reply s = handleResendOtp reply s
      /\ In (RequestOtpCall (request_payload (values s)))
            (trace (click_resend reply s))).
Proof.
  unfold click_resend, resend_rendered, resend_disabled, phase. split.
  - intros H. apply Z.ltb_lt in H. rewrite H.
    now rewrite andb_false_r.
  - intros Hc Hp Hs. rewrite Hc, Hs.
    destruct (isOtpSent s); [|discriminate]. cbn [Z.ltb Z.compare orb negb andb].
    split; [reflexivity|].
    rewrite handleResendOtp_cases. destruct reply; cbn; auto.
Qed.

(** C4 (as amended).  Whatever status the [requestOtp] call of a resend
    returns, the handler completes with [countdown = 30]; after the call it
    notifies once:
    the [otpResent] message as a success on [OK], the server-error message as
    an error on any other status.  [isSubmitting] is the same before and
    after, however the call settles. *)
Theorem handleResendOtp_resolved
    (st : TransportStatus) (reply : Outcome TransportStatus) (s : State) :
  let r := handleResendOtp (Resolves st) s in
  completion r = Normal tt
  /\ countdown (final r) = 30%Z
  /\ trace r
     = [RequestOtpCall (request_payload (values s));
        if status_eqb st OK
        then EnqueueSnackbar (t "sign-in:messages.otpResent") variant_success
        else EnqueueSnackbar
               (t "sign-in:inputs.phone.validation.server.error")
               variant_error]
  /\ (st = OK <-> status_eqb st OK = true)
  /\ isSubmitting (final (handleResendOtp reply s)) = isSubmitting s.
Proof.
  cbv zeta. rewrite !handleResendOtp_cases.
  repeat split; try reflexivity.
  - intros ->. reflexivity.
  - destruct st; cbn; congruence.
  - destruct reply; reflexivity.
Qed.

(** C5.  For every phone that matches the pattern (and any full name), a
    request answered [OK] ends in the verifying phase with [countdown = 30]
    and [isSubmitting = false], having shown one success notification after
    the call. *)
Theorem handleRequestOtp_success (s : State) :
  spec_phone_pattern (phone (values s)) = true ->
  let r := handleRequestOtp (Resolves OK) s in
  completion r = Normal tt
  /\ phase (final r) = VerifyingOtp
  /\ countdown (final r) = 30%Z
  /\ isSubmitting (final r) = false
  /\ values (final r) = values s
  /\ trace r = [RequestOtpCall (request_payload (values s));
                EnqueueSnackbar (t "sign-in:alert.otpSent") variant_success].
Proof.
  intros Hp r. subst r. rewrite handleRequestOtp_cases, Hp.
  repeat split; reflexivity.
Qed.

(** C6.  A verify call answered [UNPROCESSABLE_ENTITY] leaves the phase
    verifying, the form values and the countdown as they were and
    [isSubmitting = false]; the only collaborator call after [verifyOtp] is
    one [setError] on [otp] with the wrong-code message. *)
Theorem onSubmit_unprocessable (d : option LoginData) (s : State) :
  phase s = VerifyingOtp ->
  spec_phone_pattern (phone (values s)) = true ->
  truthy (otp (values s)) = true ->
  let r := onSubmit (Resolves {| status := UNPROCESSABLE_ENTITY; data := d |})
                    s in
  completion r = Normal tt
  /\ phase (final r) = VerifyingOtp
  /\ isSubmitting (final r) = false
  /\ values (final r) = values s
  /\ countdown (final r) = countdown s
  /\ trace r = [VerifyOtpCall {| verify_phone := phone (values s);
                                 verify_otp := otp (values s) |};
                SetError otpField (t "sign-in:alerts.wrongOTP")]
  /\ List.length (filter (fun e => match e with
                                   | SetError _ _ => true
                                   | _ => false
                                   end) (trace r)) = 1.
Proof.
  intros Hph Hp Ho r. subst r. unfold phase in *.
  rewrite onSubmit_cases, Hp, Ho.
  destruct (isOtpSent s); [|discriminate].
  repeat split; reflexivity.
Qed.

(** C7.  A phone that does not match [^\d{10,}$] fails the tests that
    [requestOtpSchema] puts on [phone]; [trigger] then answers [false], and
    [handleRequestOtp] returns at once: the state is untouched and no
    collaborator, in particular [requestOtp], is called. *)
Theorem handleRequestOtp_invalid_phone
    (reply : Outcome TransportStatus) (s : State) :
  spec_phone_pattern (phone (values s)) = false ->
  field_errors requestOtpSchema phoneField (values s) <> []
  /\ trigger [phoneField; fullNameField] s = (Normal false, s, [])
  /\ handleRequestOtp reply s = (Normal tt, s, [])
  /\ existsb is_network_call (trace (handleRequestOtp reply s)) = false.
Proof.
  intros Hp. rewrite handleRequestOtp_cases, trigger_request, Hp.
  repeat split; try reflexivity.
  pose proof (phone_ok_pattern false (values s)) as E.
  rewrite Hp in E. unfold field_ok in E. cbn [useValidationSchema] in E.
  intros N. rewrite N in E. discriminate E.
Qed.

(** C8.  From the verifying phase [handleBack] ends in the requesting phase
    with [countdown = 0] and [otp = ""], [phone] and [fullName] as they were,
    without calling any collaborator; run again on the state it produced, it
    changes nothing. *)
Theorem handleBack_effect (s : State) :
  phase s = VerifyingOtp ->
  let r := handleBack s in
  completion r = Normal tt
  /\ phase (final r) = RequestingOtp
  /\ countdown (final r) = 0%Z
  /\ otp (values (final r)) = Some ""
  /\ phone (values (final r)) = phone (values s)
  /\ fullName (values (final r)) = fullName (values s)
  /\ trace r = []
  /\ handleBack (final r) = (Normal tt, final r, []).
Proof.
  intros _ r. subst r. rewrite handleBack_cases.
  repeat split; reflexivity.
Qed.

(** C9.  A verify call answered [OK] with its data ends with
    [isSubmitting = false]; after the call the handler shows the success
    notification, hands [token], [refreshToken] and [tokenExpires] to
    [setTokensInfo] and [user] to [setUser], in this order. *)
Theorem onSubmit_ok (d : LoginData) (s : State) :
  phase s = VerifyingOtp ->
  spec_phone_pattern (phone (values s)) = true ->
  truthy (otp (values s)) = true ->
  let r := onSubmit (Resolves {| status := OK; data := Some d |}) s in
  completion r = Normal tt
  /\ isSubmitting (final r) = false
  /\ trace r = [VerifyOtpCall {| verify_phone := phone (values s);
                                 verify_otp := otp (values s) |};
                EnqueueSnackbar (t "sign-in:alerts.success") variant_success;
                SetTokensInfo (token d) (refreshToken d) (tokenExpires d);
                SetUser (user d)].
Proof.
  intros Hph Hp Ho r. subst r. unfold phase in *.
  rewrite onSubmit_cases, Hp, Ho.
  destruct (isOtpSent s); [|discriminate].
  repeat split; reflexivity.
Qed.

(** C10.  Every payload that [handleRequestOtp] or [handleResendOtp] passes
    to [requestOtp] carries the form's [phone], and has a [fullName] key
    exactly when the form's [fullName] is a non-empty string, which is then
    its value. *)
Theorem requestOtp_payload_fullName
    (reply : Outcome TransportStatus) (s : State)
    (p : AuthPhoneRequestOtpRequest) :
  In (RequestOtpCall p) (trace (handleRequestOtp reply s))
  \/ In (RequestOtpCall p) (trace (handleResendOtp reply s)) ->
  payload_phone p = phone (values s)
  /\ (forall n, payload_fullName p = Some n
                <-> fullName (values s) = Some n /\ n <> "").
Proof.
  intros H.
  assert (E : p = request_payload (values s)).
  { destruct H as [H|H].
    - rewrite handleRequestOtp_cases in H.
      destruct (spec_phone_pattern (phone (values s))); [|destruct H].
      destruct reply as [[| |code]|]; cbn in H;
        intuition (try discriminate; congruence).
    - rewrite handleResendOtp_cases in H.
      destruct reply as [st|]; [destruct (status_eqb st OK)|]; cbn in H;
        intuition (try discriminate; congruence). }
  subst p. unfold request_payload. cbn.
  split; [reflexivity|]. intros n.
  destruct (fullName (values s)) as [[|c w]|]; cbn; split;
    try discriminate; try (intros [? ?]; congruence).
  intros E. split; [exact E|]. injection E as <-. discriminate.
Qed.

(** ** Further properties of the handlers *)

Lemma iter_tick (n : nat) (s : State) :
  Nat.iter n tick s
  = {| isSubmitting := isSubmitting s; isOtpSent := isOtpSent s;
       countdown := if (countdown s <=? 0)%Z then countdown s
                    else Z.max 0 (countdown s - Z.of_nat n);
       values := values s |}.
Proof.
  induction n as [|n IH].
  - destruct s as [a b c v]. change (Nat.iter 0 tick ?x) with x.
    cbn [isSubmitting isOtpSent countdown values].
    f_equal. destruct (Z.leb_spec c 0); cbn [Z.of_nat]; lia.
  - rewrite Nat.iter_succ, IH. unfold tick.
    cbn [isSubmitting isOtpSent countdown values].
    destruct (Z.leb_spec (countdown s) 0) as [Hc|Hc].
    + destruct (Z.leb_spec (countdown s) 0); [reflexivity|lia].
    + destruct (Z.leb_spec (Z.max 0 (countdown s - Z.of_nat n)) 0);
        f_equal; lia.
Qed.

(** X1.  The countdown timer: [n] expiries take [n] seconds off a positive
    countdown but never go below zero, leave a countdown that is not positive
    alone, and touch nothing else of the state. *)
Theorem tick_iterated (n : nat) (s : State) :
  countdown (Nat.iter n tick s)
  = (if (countdown s <=? 0)%Z then countdown s
     else Z.max 0 (countdown s - Z.of_nat n))
  /\ isSubmitting (Nat.iter n tick s) = isSubmitting s
  /\ isOtpSent (Nat.iter n tick s) = isOtpSent s
  /\ values (Nat.iter n tick s) = values s.
Proof. rewrite iter_tick. repeat split; reflexivity. Qed.

(** X2.  After a request answered [OK], and after a resend answered with any
    status, the resend button of a form with nothing pending is disabled
    during exactly the next thirty timer expiries. *)
Theorem resend_cooldown_thirty_ticks
    (st : TransportStatus) (n : nat) (s : State) :
  isSubmitting s = false ->
  resend_disabled (Nat.iter n tick (final (handleResendOtp (Resolves st) s)))
  = (n <? 30)%nat
  /\ (spec_phone_pattern (phone (values s)) = true ->
      resend_disabled
        (Nat.iter n tick (final (handleRequestOtp (Resolves OK) s)))
      = (n <? 30)%nat).
Proof.
  intros Hs.
  assert (E : forall s', countdown s' = 30%Z -> isSubmitting s' = false ->
                         resend_disabled (Nat.iter n tick s') = (n <? 30)%nat).
  { intros s' Hc Hf. rewrite iter_tick. unfold resend_disabled.
    cbn [countdown isSubmitting]. rewrite Hc, Hf, orb_false_r.
    cbn [Z.leb Z.compare].
    destruct (Nat.ltb_spec n 30); [apply Z.ltb_lt|apply Z.ltb_ge]; lia. }
  split.
  - apply E; rewrite handleResendOtp_cases; [reflexivity|exact Hs].
  - intros Hp. apply E; rewrite handleRequestOtp_cases, Hp; reflexivity.
Qed.

(** X3.  When the [requestOtp] call of [handleRequestOtp] is rejected, the
    [finally] block still clears [isSubmitting]; the phase, the countdown and
    the form are as before, neither [setError] nor the snackbar is called,
    and the rejection leaves the handler. *)
Theorem handleRequestOtp_rejected (s : State) :
  spec_phone_pattern (phone (values s)) = true ->
  handleRequestOtp Rejects s
  = (Thrown Rejection,
     {| isSubmitting := false; isOtpSent := isOtpSent s;
        countdown := countdown s; values := values s |},
     [RequestOtpCall (request_payload (values s))]).
Proof. intros Hp. now rewrite handleRequestOtp_cases, Hp. Qed.

(** X4.  [handleResendOtp] does not validate: whatever the form holds, its
    first act is the [requestOtp] call.  When that call is rejected the
    handler stops there: the countdown is not set to 30 and nothing is
    notified. *)
Theorem handleResendOtp_unvalidated
    (reply : Outcome TransportStatus) (s : State) :
  (exists rest,
      trace (handleResendOtp reply s)
      = RequestOtpCall (request_payload (values s)) :: rest)
  /\ final (handleResendOtp Rejects s) = s
  /\ trace (handleResendOtp Rejects s)
     = [RequestOtpCall (request_payload (values s))]
  /\ completion (handleResendOtp Rejects s) = Thrown Rejection.
Proof.
  rewrite !handleResendOtp_cases. split.
  - destruct reply; eexists; reflexivity.
  - repeat split; reflexivity.
Qed.

(** X5.  In the verifying phase a submit with an undefined or empty code, or
    with a phone outside the pattern, is stopped by the validation:
    [verifyOtp] is not called, [isSubmitting] is not raised, and the state is
    untouched. *)
Theorem onSubmit_invalid_form (reply : Outcome VerifyResponse) (s : State) :
  isOtpSent s = true ->
  truthy (otp (values s)) = false
  \/ spec_phone_pattern (phone (values s)) = false ->
  onSubmit reply s = (Normal tt, s, []).
Proof.
  intros Hs H. rewrite onSubmit_cases, Hs.
  destruct H as [H|H]; rewrite H; [rewrite andb_false_r|]; reflexivity.
Qed.

(** X6.  Each handler calls a service at most once: [handleRequestOtp] calls
    [requestOtp] once when the phone is valid, [handleResendOtp] calls it
    once, [onSubmit] calls [verifyOtp] once when the form is valid, and
    [handleBack] calls none; no handler calls the other handler's service. *)
Theorem network_calls_of_handlers
    (rq : Outcome TransportStatus) (rv : Outcome VerifyResponse) (s : State) :
  filter is_network_call (trace (handleRequestOtp rq s))
  = (if spec_phone_pattern (phone (values s))
     then [RequestOtpCall (request_payload (values s))] else [])
  /\ filter is_network_call (trace (handleResendOtp rq s))
     = [RequestOtpCall (request_payload (values s))]
  /\ filter is_network_call (trace (onSubmit rv s))
     = (if spec_phone_pattern (phone (values s))
           && (if isOtpSent s then truthy (otp (values s)) else true)
        then [VerifyOtpCall {| verify_phone := phone (values s);
                               verify_otp := otp (values s) |}]
        else [])
  /\ filter is_network_call (trace (handleBack s)) = [].
Proof.
  rewrite handleRequestOtp_cases, handleResendOtp_cases, onSubmit_cases.
  repeat split.
  - destruct (spec_phone_pattern (phone (values s))); [|reflexivity].
    destruct rq as [[| |code]|]; reflexivity.
  - destruct rq as [st|]; [destruct (status_eqb st OK)|]; reflexivity.
  - destruct (spec_phone_pattern (phone (values s))
              && (if isOtpSent s then truthy (otp (values s)) else true));
      [|reflexivity].
    destruct rv as [[[| |code] [d|]]|]; reflexivity.
Qed.

(** X7.  The session is handed to [setTokensInfo] and [setUser] only by
    [onSubmit], and only when [verifyOtp] resolved with [OK] and data, whose
    members are then what is handed over; [handleRequestOtp],
    [handleResendOtp] and [handleBack] never write a session. *)
Theorem session_written_only_on_ok
    (rq : Outcome TransportStatus) (rv : Outcome VerifyResponse) (s : State) :
  (forall e, is_session_write e = true -> In e (trace (onSubmit rv s)) ->
     exists d, rv = Resolves {| status := OK; data := Some d |}
               /\ (e = SetTokensInfo (token d) (refreshToken d) (tokenExpires d)
                   \/ e = SetUser (user d)))
  /\ existsb is_session_write (trace (handleRequestOtp rq s)) = false
  /\ existsb is_session_write (trace (handleResendOtp rq s)) = false
  /\ existsb is_session_write (trace (handleBack s)) = false.
Proof.
  rewrite handleRequestOtp_cases, handleResendOtp_cases, onSubmit_cases.
  repeat split.
  - intros e He Hin.
    destruct (spec_phone_pattern (phone (values s))
              && (if isOtpSent s then truthy (otp (values s)) else true));
      [|destruct Hin].
    destruct rv as [[[| |code] [d|]]|]; cbn in Hin;
      repeat (destruct Hin as [<-|Hin]; [try discriminate He|]);
      try (destruct Hin);
      exists d; (split; [reflexivity|]); auto.
  - destruct (spec_phone_pattern (phone (values s))); [|reflexivity].
    destruct rq as [[| |code]|]; reflexivity.
  - destruct rq as [st|]; [destruct (status_eqb st OK)|]; reflexivity.
Qed.

(** X8.  What the handlers leave alone, however the call settles: [onSubmit]
    changes nothing but [isSubmitting]; [handleResendOtp] changes nothing but
    the countdown; [handleRequestOtp] never changes the form values. *)
Theorem handlers_frame
    (rq : Outcome TransportStatus) (rv : Outcome VerifyResponse) (s : State) :
  (isOtpSent (final (onSubmit rv s)) = isOtpSent s
   /\ countdown (final (onSubmit rv s)) = countdown s
   /\ values (final (onSubmit rv s)) = values s)
  /\ (isSubmitting (final (handleResendOtp rq s)) = isSubmitting s
      /\ isOtpSent (final (handleResendOtp rq s)) = isOtpSent s
      /\ values (final (handleResendOtp rq s)) = values s)
  /\ values (final (handleRequestOtp rq s)) = values s.
Proof.
  rewrite handleRequestOtp_cases, handleResendOtp_cases, onSubmit_cases.
  split; [|split].
  - destruct (spec_phone_pattern (phone (values s))
              && (if isOtpSent s then truthy (otp (values s)) else true));
      [|repeat split; reflexivity].
    destruct rv as [[[| |code] [d|]]|]; repeat split; reflexivity.
  - destruct rq as [st|]; repeat split; reflexivity.
  - destruct (spec_phone_pattern (phone (values s))); [|reflexivity].
    destruct rq as [[| |code]|]; reflexivity.
Qed.

(** X9.  The verifying phase is entered in one way only: [handleRequestOtp]
    ends with [isOtpSent] true exactly when it was true before or the phone
    is valid and the call resolved with [OK]; only in the latter case does it
    set the countdown, to 30. *)
Theorem verifying_phase_entry (rq : Outcome TransportStatus) (s : State) :
  let granted :=
    spec_phone_pattern (phone (values s))
    && match rq with Resolves OK => true | _ => false end in
  isOtpSent (final (handleRequestOtp rq s)) = isOtpSent s || granted
  /\ countdown (final (handleRequestOtp rq s))
     = (if granted then 30%Z else countdown s).
Proof.
  cbv zeta. rewrite handleRequestOtp_cases.
  destruct (spec_phone_pattern (phone (values s)));
    [|cbn; now rewrite orb_false_r].
  destruct rq as [[| |code]|]; cbn;
    rewrite ?orb_true_r, ?orb_false_r; split; reflexivity.
Qed.

(** X10.  The two schemas of [useValidationSchema]: in either phase a phone
    passes [required], [min(10)] and [matches(/^\d+$/)] together exactly when
    it has at least ten characters, all of them digits; [fullName] always
    passes, also when undefined; [otp] must be a non-empty string in the
    verifying phase only.  Whatever the verifying schema accepts, the
    requesting schema accepts. *)
Theorem schemas_accept (b : bool) (v : SignInFormData) :
  field_ok (useValidationSchema b) v phoneField
  = (10 <=? String.length (phone v))%nat && all_digits (phone v)
  /\ field_ok (useValidationSchema b) v fullNameField = true
  /\ field_ok (useValidationSchema b) v otpField
     = (if b then truthy (otp v) else true)
  /\ (forall f, field_ok verifyOtpSchema v f = true ->
                field_ok requestOtpSchema v f = true).
Proof.
  split; [|split; [|split]].
  - rewrite phone_ok_pattern. apply spec_digits_at_least_length.
  - apply fullName_ok.
  - destruct b; [apply otp_ok_verify|reflexivity].
  - intros [| |] H.
    + reflexivity.
    + change (field_ok (useValidationSchema false) v phoneField = true).
      change (field_ok (useValidationSchema true) v phoneField = true) in H.
      now rewrite phone_ok_pattern in *.
    + reflexivity.
Qed.

(** X11.  While [isSubmitting] holds, every rendered input and button is
    given [disabled={true}], except the Back button, which has no [disabled]
    prop and is only given [loading={true}]. *)
Theorem render_while_submitting (s : State) (e : Element) :
  isSubmitting s = true ->
  In e (render s) ->
  disabled e = Some true
  \/ (control e = BackButton /\ disabled e = None /\ loading e = Some true).
Proof.
  intros Hs Hin. unfold render in Hin. rewrite Hs in Hin.
  destruct (isOtpSent s); cbn in Hin;
    repeat (destruct Hin as [<-|Hin];
            [cbn; rewrite ?orb_true_r; auto|]);
    destruct Hin.
Qed.

(** X12.  Each phase has its own controls, and the actions of the other
    phase do nothing: in the verifying phase the phone and the name cannot
    be edited and no code can be requested with the send button; in the
    requesting phase the code cannot be edited and verify, back and resend
    are not there to be used. *)
Theorem actions_out_of_phase
    (rq : Outcome TransportStatus) (rv : Outcome VerifyResponse)
    (text : string) (s : State) :
  map control (render s)
  = (if isOtpSent s
     then [PhoneInput; OtpInput; BackButton; VerifyButton; ResendOtpButton]
     else [PhoneInput; FullNameInput; SendOtpButton])
  /\ (isOtpSent s = true ->
      perform (Edit phoneField text) s = (Normal tt, s, [])
      /\ perform (Edit fullNameField text) s = (Normal tt, s, [])
      /\ perform (ClickSend rq) s = (Normal tt, s, []))
  /\ (isOtpSent s = false ->
      perform (Edit otpField text) s = (Normal tt, s, [])
      /\ perform (ClickVerify rv) s = (Normal tt, s, [])
      /\ perform ClickBack s = (Normal tt, s, [])
      /\ perform (ClickResend rq) s = (Normal tt, s, [])).
Proof.
  unfold perform, click_resend, resend_rendered, operable, render.
  split; [|split]; [destruct (isOtpSent s); reflexivity| |];
    intros ->; cbn; destruct (isSubmitting s); repeat split; reflexivity.
Qed.

(** ** Sessions *)

(** The resend button of [render] is the one [click_resend] reads. *)
Lemma operable_resend (s : State) :
  operable ResendOtpButton s = resend_rendered s && negb (resend_disabled s).
Proof.
  unfold operable, render, resend_rendered, resend_disabled.
  destruct (isOtpSent s), (isSubmitting s), (0 <? countdown s)%Z;
    reflexivity.
Qed.

(** With the countdown running the resend button is disabled. *)
Lemma click_resend_gate_closed (rq : Outcome TransportStatus) (s : State) :
  ((0 < countdown s)%Z -> click_resend rq s = (Normal tt, s, []))
  /\ ((0 < countdown s)%Z -> resend_disabled s = true).
Proof.
  unfold click_resend, resend_disabled.
  split; intros H; apply Z.ltb_lt in H; rewrite H;
    [now rewrite andb_false_r|reflexivity].
Qed.

Lemma operable_phase (s : State) :
  (operable SendOtpButton s = true -> isOtpSent s = false)
  /\ (operable VerifyButton s = true -> isOtpSent s = true)
  /\ (operable PhoneInput s = true -> isOtpSent s = false).
Proof.
  unfold operable, render.
  destruct (isOtpSent s), (isSubmitting s); cbn; repeat split;
    intros; congruence.
Qed.

Lemma perform_invariant (a : Action) (s : State) :
  session_invariant s ->
  session_invariant (final (perform a s))
  /\ forallb validated_call (trace (perform a s)) = true.
Proof.
  intros Inv. pose proof Inv as (Hc & Hp & Hn & Ho).
  assert (Same : session_invariant (final (Normal tt, s, @nil Event))
                 /\ forallb validated_call (trace (Normal tt, s, @nil Event))
                    = true)
    by (split; [exact Inv|reflexivity]).
  assert (Kept : forall b, session_invariant
                   {| isSubmitting := b; isOtpSent := isOtpSent s;
                      countdown := countdown s; values := values s |})
    by (intros b; exact Inv).
  destruct a as [|f text|rq|rv| |rq]; unfold perform.
  - (* Tick *)
    split; [|reflexivity]. unfold tick, session_invariant.
    destruct (Z.leb_spec (countdown s) 0); cbn; repeat split; auto; lia.
  - (* Edit *)
    destruct (operable (input_of f) s) eqn:E; [|exact Same].
    split; [|reflexivity].
    destruct f; repeat split;
      cbn [final fst snd setValue isOtpSent countdown values
           fullName phone otp input_of] in *;
      auto; try discriminate; try lia.
    intros Hs. apply operable_phase in E. congruence.
  - (* ClickSend *)
    destruct (operable SendOtpButton s); [|exact Same].
    rewrite handleRequestOtp_cases.
    destruct (spec_phone_pattern (phone (values s))) eqn:V; [|exact Same].
    assert (C : validated_call (RequestOtpCall (request_payload (values s)))
                = true) by exact V.
    destruct rq as [[| |code]|];
      cbn [final trace fst snd forallb]; rewrite C;
      (split; [|reflexivity]); try apply Kept.
    repeat split; cbn [isOtpSent countdown values]; auto; lia.
  - (* ClickVerify *)
    destruct (operable VerifyButton s) eqn:E; [|exact Same].
    apply operable_phase in E.
    rewrite onSubmit_cases.
    replace (if isOtpSent s then truthy (otp (values s)) else true)
      with (truthy (otp (values s))) by now rewrite E.
    destruct (spec_phone_pattern (phone (values s))) eqn:V; [|exact Same].
    destruct (truthy (otp (values s))) eqn:T; [|exact Same].
    assert (C : validated_call
                  (VerifyOtpCall {| verify_phone := phone (values s);
                                    verify_otp := otp (values s) |}) = true).
    { cbn [validated_call verify_phone verify_otp]. now rewrite V, T. }
    cbn [andb]. cbv zeta.
    destruct rv as [[[| |code] [d|]]|];
      cbn [status data final trace fst snd forallb]; rewrite C;
      (split; [apply Kept|reflexivity]).
  - (* ClickBack *)
    destruct (operable BackButton s); [|exact Same].
    rewrite handleBack_cases.
    split; [|reflexivity].
    repeat split; cbn [final fst snd isOtpSent countdown values
                       fullName phone otp]; auto; try discriminate; lia.
  - (* ClickResend *)
    unfold click_resend, resend_rendered.
    destruct (isOtpSent s) eqn:S; [|exact Same].
    destruct (resend_disabled s); [exact Same|].
    cbn [andb negb]. rewrite handleResendOtp_cases. specialize (Hp eq_refl).
    assert (C : validated_call (RequestOtpCall (request_payload (values s)))
                = true) by exact Hp.
    destruct rq as [st|]; cbn [final trace fst snd forallb]; rewrite C.
    + split; [|destruct (status_eqb st OK); reflexivity].
      repeat split; cbn [isOtpSent countdown values]; auto; lia.
    + split; [exact Inv|reflexivity].
Qed.

Lemma run_invariant (acts : list Action) :
  forall s, session_invariant s ->
            session_invariant (fst (run acts s))
            /\ forallb validated_call (snd (run acts s)) = true.
Proof.
  induction acts as [|a rest IH]; intros s Inv.
  - split; [exact Inv|reflexivity].
  - cbn [run].
    destruct (perform_invariant a s Inv) as [I1 T1].
    destruct (perform a s) as [[c s1] ev1].
    destruct (IH s1 I1) as [I2 T2].
    destruct (run rest s1) as [s2 ev2].
    split; [exact I2|].
    cbn [snd]. rewrite forallb_app. cbn [fst snd trace] in *.
    now rewrite T1, T2.
Qed.

(** X13.  Whatever sequence of timer expiries, edits and clicks is applied
    to the freshly mounted form, and whatever the services reply: the
    countdown stays between 0 and 30, the form is in the verifying phase
    only with a phone of at least ten digits, and [fullName] and [otp] are
    never undefined. *)
Theorem session_state_invariant (acts : list Action) :
  let s := fst (run acts initialState) in
  (0 <= countdown s <= 30)%Z
  /\ (phase s = VerifyingOtp ->
      (10 <= String.length (phone (values s)))%nat
      /\ all_digits (phone (values s)) = true)
  /\ fullName (values s) <> None
  /\ otp (values s) <> None.
Proof.
  cbv zeta.
  assert (I0 : session_invariant initialState).
  { repeat split; cbn; try lia; discriminate. }
  destruct (run_invariant acts initialState I0) as [(Hc & Hp & Hn & Ho) _].
  repeat split; try lia; auto;
    unfold phase in H; destruct (isOtpSent (fst (run acts initialState)));
    try discriminate H; specialize (Hp eq_refl);
    unfold spec_phone_pattern in Hp;
    rewrite spec_digits_at_least_length in Hp;
    apply andb_true_iff in Hp; destruct Hp as [L D];
    [apply Nat.leb_le in L; exact L|exact D].
Qed.

(** X14.  In every such session the services only see validated input:
    each [requestOtp] payload, also that of a resend, which does not
    validate, carries a phone of the pattern, and each [verifyOtp] payload
    carries such a phone and a non-empty code. *)
Theorem session_calls_validated (acts : list Action) (e : Event) :
  In e (snd (run acts initialState)) ->
  match e with
  | RequestOtpCall p => spec_phone_pattern (payload_phone p) = true
  | VerifyOtpCall p =>
      spec_phone_pattern (verify_phone p) = true
      /\ exists code, verify_otp p = Some code /\ code <> ""
  | _ => True
  end.
Proof.
  intros Hin.
  assert (I0 : session_invariant initialState).
  { repeat split; cbn; try lia; discriminate. }
  destruct (run_invariant acts initialState I0) as [_ T].
  rewrite forallb_forall in T. specialize (T e Hin).
  destruct e as [p|p| | | |]; cbn in T; auto.
  apply andb_true_iff in T. destruct T as [P O]. split; [exact P|].
  destruct (verify_otp p) as [[|c w]|]; try discriminate O.
  eexists; split; [reflexivity|discriminate].
Qed.

(** X15.  The countdown gates the resend button only.  In the verifying
    phase with the countdown still running a click on resend does nothing,
    but Back followed by Send requests a new code at once. *)
Theorem back_then_send_skips_cooldown
    (rq : Outcome TransportStatus) (s : State) :
  isOtpSent s = true ->
  isSubmitting s = false ->
  (0 < countdown s)%Z ->
  spec_phone_pattern (phone (values s)) = true ->
  run [ClickResend rq] s = (s, [])
  /\ run [ClickBack; ClickSend (Resolves OK)] s
     = ({| isSubmitting := false; isOtpSent := true; countdown := 30;
           values := {| fullName := fullName (values s);
                        phone := phone (values s); otp := Some "" |} |},
        [RequestOtpCall (request_payload (values s));
         EnqueueSnackbar (t "sign-in:alert.otpSent") variant_success]).
Proof.
  intros Hs Hf Hc Hp. split.
  - cbn [run perform].
    rewrite (proj1 (click_resend_gate_closed rq s) Hc). reflexivity.
  - cbn [run perform]. unfold operable, render. rewrite Hs, Hf.
    cbn [existsb app control disabled control_eqb andb orb negb].
    rewrite handleBack_cases.
    cbn [isOtpSent isSubmitting negb existsb app control disabled
         control_eqb andb orb].
    rewrite Hf. cbn [orb andb].
    rewrite handleRequestOtp_cases. cbn [values phone]. rewrite Hp.
    reflexivity.
Qed.

End Flow.

(** ** The claims at concrete inputs

    [t] is instantiated with the translation that shows the key itself, and
    the user type with [string]. *)

Lemma click_resend_countdown_gate_witness :
  ((0 < countdown cooling_state)%Z
   /\ countdown (final (click_resend (User := string) (fun k => k)
                          (Resolves OK) cooling_state)) = 5%Z)
  /\ (countdown cooled_state = 0%Z
      /\ click_resend (User := string) (fun k => k) (Resolves OK) cooled_state
         = handleResendOtp (fun k => k) (Resolves OK) cooled_state).
Proof.
  split.
  - split; [reflexivity|].
    rewrite (proj1 (click_resend_countdown_gate (User := string) (fun k => k)
                      (Resolves OK) cooling_state) eq_refl).
    reflexivity.
  - split; [reflexivity|].
    apply (proj2 (click_resend_countdown_gate (User := string) (fun k => k)
                    (Resolves OK) cooled_state) eq_refl eq_refl eq_refl).
Defined.

Lemma handleRequestOtp_success_witness :
  spec_phone_pattern (phone (values requesting_state)) = true
  /\ final (handleRequestOtp (User := string) (fun k => k) (Resolves OK)
              requesting_state)
     = {| isSubmitting := false; isOtpSent := true; countdown := 30;
          values := values requesting_state |}.
Proof.
  split; [reflexivity|].
  pose proof (handleRequestOtp_success (User := string) (fun k => k)
                requesting_state eq_refl) as H.
  cbv zeta in H. destruct H as (_ & _ & _ & _ & _ & _). reflexivity.
Defined.

Lemma onSubmit_unprocessable_witness :
  phase verifying_state = VerifyingOtp
  /\ spec_phone_pattern (phone (values verifying_state)) = true
  /\ truthy (otp (values verifying_state)) = true
  /\ trace (onSubmit (User := string) (fun k => k)
              (Resolves {| status := UNPROCESSABLE_ENTITY; data := None |})
              verifying_state)
     = [VerifyOtpCall {| verify_phone := "5551234567";
                         verify_otp := Some "123456" |};
        SetError otpField "sign-in:alerts.wrongOTP"].
Proof.
  repeat (split; [reflexivity|]).
  apply (onSubmit_unprocessable (User := string) (fun k => k) None
           verifying_state eq_refl eq_refl eq_refl).
Defined.

Lemma handleRequestOtp_invalid_phone_witness :
  spec_phone_pattern (phone (values short_phone_state)) = false
  /\ handleRequestOtp (User := string) (fun k => k) (Resolves OK)
       short_phone_state
     = (Normal tt, short_phone_state, []).
Proof.
  split; [reflexivity|].
  apply (handleRequestOtp_invalid_phone (User := string) (fun k => k)
           (Resolves OK) short_phone_state eq_refl).
Defined.

Lemma handleBack_effect_witness :
  phase verifying_state = VerifyingOtp
  /\ phase (final (handleBack (User := string) verifying_state))
     = RequestingOtp
  /\ countdown (final (handleBack (User := string) verifying_state)) = 0%Z.
Proof.
  split; [reflexivity|].
  split;
    apply (handleBack_effect (User := string) verifying_state eq_refl).
Defined.

Lemma onSubmit_ok_witness :
  phase verifying_state = VerifyingOtp
  /\ spec_phone_pattern (phone (values verifying_state)) = true
  /\ truthy (otp (values verifying_state)) = true
  /\ trace (onSubmit (fun k => k)
              (Resolves {| status := OK;
                           data := Some {| token := "a"; refreshToken := "b";
                                           tokenExpires := 1700000000;
                                           user := "jane" |} |})
              verifying_state)
     = [VerifyOtpCall {| verify_phone := "5551234567";
                         verify_otp := Some "123456" |};
        EnqueueSnackbar "sign-in:alerts.success" variant_success;
        SetTokensInfo "a" "b" 1700000000;
        SetUser "jane"].
Proof.
  repeat (split; [reflexivity|]).
  apply (onSubmit_ok (fun k => k)
           {| token := "a"; refreshToken := "b";
              tokenExpires := 1700000000; user := "jane" |}
           verifying_state eq_refl eq_refl eq_refl).
Defined.

Lemma requestOtp_payload_fullName_witness :
  In (RequestOtpCall {| payload_phone := "55512"; payload_fullName := None |})
     (trace (handleResendOtp (User := string) (fun k => k) (Resolves OK)
               short_phone_state))
  /\ (forall n, None = Some n <-> Some "" = Some n /\ n <> "").
Proof.
  split; [left; reflexivity|].
  apply (requestOtp_payload_fullName (User := string) (fun k => k)
           (Resolves OK) short_phone_state
           {| payload_phone := "55512"; payload_fullName := None |}).
  right. left. reflexivity.
Defined.

(** ** The further properties at concrete inputs *)

Lemma resend_cooldown_thirty_ticks_witness :
  isSubmitting cooled_state = false
  /\ resend_disabled
       (Nat.iter 29 tick
          (final (handleResendOtp (User := string) (fun k => k)
                    (Resolves (OtherStatus 500)) cooled_state))) = true
  /\ resend_disabled
       (Nat.iter 30 tick
          (final (handleResendOtp (User := string) (fun k => k)
                    (Resolves (OtherStatus 500)) cooled_state))) = false.
Proof.
  split; [reflexivity|]. split.
  - exact (proj1 (resend_cooldown_thirty_ticks (User := string) (fun k => k)
                    (OtherStatus 500) 29 cooled_state eq_refl)).
  - exact (proj1 (resend_cooldown_thirty_ticks (User := string) (fun k => k)
                    (OtherStatus 500) 30 cooled_state eq_refl)).
Defined.

Lemma handleRequestOtp_rejected_witness :
  spec_phone_pattern (phone (values requesting_state)) = true
  /\ handleRequestOtp (User := string) (fun k => k) Rejects requesting_state
     = (Thrown Rejection, requesting_state,
        [RequestOtpCall {| payload_phone := "5551234567";
                           payload_fullName := Some "Jane Doe" |}]).
Proof.
  split; [reflexivity|].
  exact (handleRequestOtp_rejected (User := string) (fun k => k)
           requesting_state eq_refl).
Defined.

Lemma onSubmit_invalid_form_witness :
  isOtpSent (final (handleRequestOtp (User := string) (fun k => k)
                      (Resolves OK) requesting_state)) = true
  /\ truthy (otp (values requesting_state)) = false
  /\ trace (onSubmit (User := string) (fun k => k) Rejects
              (final (handleRequestOtp (User := string) (fun k => k)
                        (Resolves OK) requesting_state))) = [].
Proof.
  split; [reflexivity|]. split; [reflexivity|].
  rewrite (onSubmit_invalid_form (User := string) (fun k => k) Rejects
             (final (handleRequestOtp (User := string) (fun k => k)
                       (Resolves OK) requesting_state))
             eq_refl (or_introl eq_refl)).
  reflexivity.
Defined.

Lemma session_written_only_on_ok_witness :
  let rv := Resolves {| status := OK;
                        data := Some {| token := "a"; refreshToken := "b";
                                        tokenExpires := 1700000000;
                                        user := "jane" |} |} in
  is_session_write (SetUser "jane") = true
  /\ In (SetUser "jane") (trace (onSubmit (fun k => k) rv verifying_state))
  /\ exists d, rv = Resolves {| status := OK; data := Some d |}
               /\ (SetUser "jane"
                   = SetTokensInfo (token d) (refreshToken d) (tokenExpires d)
                   \/ SetUser "jane" = SetUser (user d)).
Proof.
  cbv zeta. split; [reflexivity|].
  assert (Hin : In (SetUser "jane")
                   (trace (onSubmit (fun k => k)
                             (Resolves
                                {| status := OK;
                                   data := Some {| token := "a";
                                                   refreshToken := "b";
                                                   tokenExpires := 1700000000;
                                                   user := "jane" |} |})
                             verifying_state)))
    by (vm_compute; tauto).
  split; [exact Hin|].
  exact (proj1 (session_written_only_on_ok (fun k => k) Rejects _
                  verifying_state) (SetUser "jane") eq_refl Hin).
Defined.

Lemma render_while_submitting_witness :
  let stuck := {| isSubmitting := true; isOtpSent := true; countdown := 30;
                  values := values verifying_state |} in
  let back := {| control := BackButton; disabled := None;
                 loading := Some true |} in
  isSubmitting stuck = true
  /\ In back (render stuck)
  /\ (disabled back = Some true
      \/ (control back = BackButton /\ disabled back = None
          /\ loading back = Some true)).
Proof.
  cbv zeta. split; [reflexivity|].
  split; [vm_compute; tauto|].
  apply (render_while_submitting
           {| isSubmitting := true; isOtpSent := true; countdown := 30;
              values := values verifying_state |});
    [reflexivity|vm_compute; tauto].
Defined.

Lemma actions_out_of_phase_witness :
  isOtpSent verifying_state = true
  /\ perform (User := string) (fun k => k) (Edit phoneField "0000000000")
       verifying_state
     = (Normal tt, verifying_state, [])
  /\ isOtpSent requesting_state = false
  /\ perform (User := string) (fun k => k) (ClickResend (Resolves OK))
       requesting_state
     = (Normal tt, requesting_state, []).
Proof.
  split; [reflexivity|]. split.
  - apply (proj1 (proj2 (actions_out_of_phase (User := string) (fun k => k)
                           Rejects Rejects "0000000000" verifying_state))
             eq_refl).
  - split; [reflexivity|].
    apply (proj2 (proj2 (actions_out_of_phase (User := string) (fun k => k)
                           (Resolves OK) Rejects "" requesting_state))
             eq_refl).
Defined.

Lemma session_state_invariant_witness :
  let acts := [Edit phoneField "5551234567"; ClickSend (Resolves OK); Tick] in
  let s := fst (run (User := string) (fun k => k) acts initialState) in
  phase s = VerifyingOtp
  /\ countdown s = 29%Z
  /\ (10 <= String.length (phone (values s)))%nat
  /\ all_digits (phone (values s)) = true.
Proof.
  cbv zeta. split; [reflexivity|]. split; [reflexivity|].
  apply (session_state_invariant (User := string) (fun k => k)
           [Edit phoneField "5551234567"; ClickSend (Resolves OK); Tick]).
  reflexivity.
Defined.

Lemma session_calls_validated_witness :
  let acts := [Edit phoneField "5551234567"; ClickSend (Resolves OK);
               ClickBack; Edit phoneField "55512"; ClickSend (Resolves OK)] in
  let call := RequestOtpCall {| payload_phone := "5551234567";
                                payload_fullName := None |} in
  In call (snd (run (User := string) (fun k => k) acts initialState))
  /\ spec_phone_pattern "5551234567" = true.
Proof.
  cbv zeta.
  assert (Hin : In (RequestOtpCall {| payload_phone := "5551234567";
                                      payload_fullName := None |})
                   (snd (run (User := string) (fun k => k)
                           [Edit phoneField "5551234567";
                            ClickSend (Resolves OK); ClickBack;
                            Edit phoneField "55512";
                            ClickSend (Resolves OK)] initialState)))
    by (vm_compute; tauto).
  split; [exact Hin|].
  exact (session_calls_validated (User := string) (fun k => k) _ _ Hin).
Defined.

Lemma back_then_send_skips_cooldown_witness :
  isOtpSent cooling_state = true
  /\ isSubmitting cooling_state = false
  /\ (0 < countdown cooling_state)%Z
  /\ spec_phone_pattern (phone (values cooling_state)) = true
  /\ snd (run (User := string) (fun k => k) [ClickResend (Resolves OK)]
            cooling_state) = []
  /\ snd (run (User := string) (fun k => k)
            [ClickBack; ClickSend (Resolves OK)] cooling_state)
     = [RequestOtpCall {| payload_phone := "5551234567";
                          payload_fullName := Some "Jane Doe" |};
        EnqueueSnackbar "sign-in:alert.otpSent" variant_success].
Proof.
  repeat (split; [reflexivity|]).
  pose proof (back_then_send_skips_cooldown (User := string) (fun k => k)
                (Resolves OK) cooling_state eq_refl eq_refl eq_refl eq_refl)
    as [_ H2].
  rewrite H2. reflexivity.
Defined.

Lemma schemas_accept_witness :
  field_ok (verifyOtpSchema (fun k => k)) (values verifying_state) phoneField
  = true
  /\ field_ok (requestOtpSchema (fun k => k)) (values verifying_state)
       phoneField = true.
Proof.
  split; [reflexivity|].
  apply (proj2 (proj2 (proj2 (schemas_accept (fun k => k) true
                                (values verifying_state))))).
  reflexivity.
Defined.

(** C4 as stated does not hold of every outcome: when the [requestOtp] call
    of a resend is rejected, [setCountdown(30)] is never reached and nothing
    is notified.  From [cooled_state] the countdown is still 0 and the trace
    holds the call alone. *)
Lemma handleResendOtp_rejected_counterexample :
  ~ (forall (reply : Outcome TransportStatus) (s : State),
        let r := handleResendOtp (User := string) (fun k => k) reply s in
        countdown (final r) = 30%Z
        /\ exists m v, In (EnqueueSnackbar m v) (trace r)).
Proof.
  intros H. destruct (H Rejects cooled_state) as [Hc _].
  vm_compute in Hc. discriminate Hc.
Qed.
